(** * Presentation layer of the mobile app: the [Home] screen and the [Button]

    A shallow embedding of the two view components of the repository,
    [Home] (the "Hello Universe" screen) and [Button]
    (components/Button.tsx), together with the part of the hosting UI
    toolkit's element representation that they build: JSX elements with a
    component type, a props object and a list of children. *)

From stdpp Require Import gmap strings list fin_maps.

Local Open Scope string_scope.
Local Open Scope Z_scope.

Set Warnings "-register-all".

(** ** JavaScript values and objects *)

(** The primitive values that occur in the style objects of the two
    components.  Every number literal of the source (1, 10, 12, 24) is an
    integer, so numbers are kept in [Z]. *)
Inductive JsValue : Type :=
  | VUndefined
  | VNum (n : Z)
  | VStr (s : string).

#[global] Instance JsValue_eq_dec : EqDecision JsValue.
Proof. solve_decision. Defined.

(** Property access [o.k] on a plain object: the stored value, or
    [undefined] when the object has no such member. *)
Definition getProp (o : gmap string JsValue) (k : string) : JsValue :=
  default VUndefined (o !! k).

(** ** The environment a component is evaluated in *)

(** [colorPalette] is the binding imported from "../styles/colors", a module
    that is not among the sources; it is taken as a parameter, an arbitrary
    object of named values.  [globals] stands for every other binding that
    is in scope or reachable when the toolkit calls a component. *)
Record Env : Type := mkEnv {
  colorPalette : gmap string JsValue;
  globals : gmap string JsValue;
}.

(** A callback is run for its effect: it maps the environment to the new
    environment and the outputs it emitted. *)
Definition Callback : Type := Env -> Env * list string.

(** ** Render trees *)

(** The host components named by the two sources.  [Text] of Button.tsx is
    imported from "react-native"; [Text] of the Home screen is imported from
    "@react-navigation/elements". *)
Inductive Component : Type :=
  | View
  | TouchableOpacity
  | Text
  | NavigationText.

#[global] Instance Component_eq_dec : EqDecision Component.
Proof. solve_decision. Defined.

(** A value given to a JSX attribute: an object (as for [style]) or a
    function (as for [onPress]). *)
Inductive PropValue : Type :=
  | PObject (o : gmap string JsValue)
  | PCallback (f : Callback).

(** A node of the render tree: a string child, or an element
    [<type props...>children</type>]. *)
Inductive Node : Type :=
  | TextNode (s : string)
  | Elem (type : Component) (props : gmap string PropValue)
         (children : list Node).

Definition nodeType (n : Node) : option Component :=
  match n with
  | TextNode _ => None
  | Elem t _ _ => Some t
  end.

Definition nodeProps (n : Node) : gmap string PropValue :=
  match n with
  | TextNode _ => ∅
  | Elem _ ps _ => ps
  end.

Definition nodeChildren (n : Node) : list Node :=
  match n with
  | TextNode _ => []
  | Elem _ _ cs => cs
  end.

(** The [style] attribute of a node, when it carries a style object. *)
Definition styleOf (n : Node) : option (gmap string JsValue) :=
  match nodeProps n !! "style" with
  | Some (PObject o) => Some o
  | _ => None
  end.

(** One attribute of the style of a node. *)
Definition styleAttr (n : Node) (k : string) : option JsValue :=
  o ← styleOf n; o !! k.

(** The text a tree displays: its string leaves, left to right. *)
Fixpoint visibleText (n : Node) : string :=
  match n with
  | TextNode s => s
  | Elem _ _ cs => String.concat "" (map visibleText cs)
  end.

(** Number of nodes of a tree. *)
Fixpoint nodeCount (n : Node) : nat :=
  match n with
  | TextNode _ => 1%nat
  | Elem _ _ cs => S (list_sum (map nodeCount cs))
  end.



(** ** Touch dispatch of the toolkit *)

(** The press handler of a node: its [onPress] attribute when that is a
    function. *)
Definition onPressOf (n : Node) : option Callback :=
  match nodeProps n !! "onPress" with
  | Some (PCallback f) => Some f
  | _ => None
  end.

(** Every function-valued attribute anywhere in a tree. *)
Fixpoint callbacksOf (n : Node) : list Callback :=
  match n with
  | TextNode _ => []
  | Elem _ ps cs =>
      omap (fun kv => match kv.2 with PCallback f => Some f | _ => None end)
           (map_to_list ps)
      ++ mjoin (callbacksOf <$> cs)
  end.

(** A node together with all its descendants, in document order. *)
Fixpoint subtrees (n : Node) : list Node :=
  n :: match n with
       | TextNode _ => []
       | Elem _ _ cs => mjoin (subtrees <$> cs)
       end.

(** A press on a tappable element runs its [onPress] handler when there is
    one; without a handler nothing of the application runs. *)
Definition press (n : Node) (env : Env) : Env * list string :=
  match onPressOf n with
  | Some f => f env
  | None => (env, [])
  end.

(** ** components/Button.tsx *)

Record ButtonProps : Type := mkButtonProps {
  label : string;
}.

Definition Button (env : Env) (props : ButtonProps) : Node :=
  Elem TouchableOpacity
    {[ "style" := PObject
         {[ "backgroundColor" := getProp (colorPalette env) "colorBrand";
            "borderRadius" := VNum 24;
            "padding" := VNum 12 ]} ]}
    [ Elem Text
        {[ "style" := PObject {[ "color" := VStr "white" ]} ]}
        [ TextNode (label props) ] ].

(** ** The Home screen *)

(** [StyleSheet.create] of the toolkit hands back the object it is given. *)
Definition StyleSheet_create {A : Type} (obj : A) : A := obj.

Record HomeStyles : Type := mkHomeStyles {
  container : gmap string JsValue;
}.

Definition styles : HomeStyles :=
  StyleSheet_create
    {| container :=
         {[ "flex" := VNum 1;
            "justifyContent" := VStr "center";
            "alignItems" := VStr "center";
            "gap" := VNum 10 ]} |}.

(** [Home] has no parameter; the environment is the one it is called in. *)
Definition Home (env : Env) : Node :=
  Elem View
    {[ "style" := PObject (container styles) ]}
    [ Elem NavigationText ∅ [ TextNode "Hello Universe" ] ].

(** ** Templates: trees with places for the inputs *)

(** A render that neither branches nor loops on its inputs builds one fixed
    tree and puts the inputs into it as they are.  A template is such a
    tree: each string leaf is a constant or the place of the label, each
    style value is a constant or the place of the brand color. *)
Inductive TextSlot : Type :=
  | TextConst (s : string)
  | LabelSlot.

Inductive ValueSlot : Type :=
  | ValueConst (v : JsValue)
  | BrandSlot.

#[global] Instance ValueSlot_eq_dec : EqDecision ValueSlot.
Proof. solve_decision. Defined.

Inductive Template : Type :=
  | TplText (s : TextSlot)
  | TplElem (type : Component)
            (attrs : gmap string (gmap string ValueSlot))
            (children : list Template).

Definition fillText (l : string) (s : TextSlot) : string :=
  match s with
  | TextConst c => c
  | LabelSlot => l
  end.

Definition fillValue (b : JsValue) (s : ValueSlot) : JsValue :=
  match s with
  | ValueConst v => v
  | BrandSlot => b
  end.

(** The tree of a template for a label [l] and a brand color [b].  The
    recursion is on the template; [l] and [b] are never inspected. *)
Fixpoint fill (t : Template) (l : string) (b : JsValue) : Node :=
  match t with
  | TplText s => TextNode (fillText l s)
  | TplElem ty attrs cs =>
      Elem ty ((fun o => PObject (fillValue b <$> o)) <$> attrs)
           ((fun c => fill c l b) <$> cs)
  end.

(** A template without a place for an input. *)
Fixpoint closed (t : Template) : bool :=
  match t with
  | TplText (TextConst _) => true
  | TplText LabelSlot => false
  | TplElem _ attrs cs =>
      bool_decide (map_Forall (fun _ o =>
                     map_Forall (fun _ s => s <> BrandSlot) o) attrs)
      && forallb closed cs
  end.




(** The environment of a later render: the palette is the constant it was,
    the other bindings are whatever they have become. *)
Definition laterEnv (env : Env) (gl : gmap string JsValue) : Env :=
  {| colorPalette := colorPalette env; globals := gl |}.

(** ** Two environments used in the examples below *)

Definition lightEnv : Env :=
  {| colorPalette := {[ "colorBrand" := VStr "#6200ee";
                        "colorSurface" := VStr "#ffffff" ]};
     globals := {[ "locale" := VStr "en" ]} |}.

Definition darkEnv : Env :=
  {| colorPalette := {[ "colorBrand" := VStr "#6200ee";
                        "colorSurface" := VStr "#121212";
                        "colorAccent" := VNum 255 ]};
     globals := {[ "locale" := VStr "pt"; "pressCount" := VNum 7 ]} |}.

(** * Facts about the render-tree operations *)

(** Induction on render trees, with the hypothesis available for every
    child of an element. *)
Lemma Node_nested_ind (P : Node -> Prop) :
  (forall s, P (TextNode s)) ->
  (forall t ps cs, Forall P cs -> P (Elem t ps cs)) ->
  forall n, P n.
Proof.
  intros Htext Helem. fix IH 1.
  intros [s | t ps cs]; [apply Htext | apply Helem].
  induction cs as [| c cs IHcs]; constructor; [apply IH | apply IHcs].
Qed.

Lemma getProp_Some (o : gmap string JsValue) (k : string) (v : JsValue) :
  o !! k = Some v -> getProp o k = v.
Proof. unfold getProp. intros ->. reflexivity. Qed.

Lemma getProp_None (o : gmap string JsValue) (k : string) :
  o !! k = None -> getProp o k = VUndefined.
Proof. unfold getProp. intros ->. reflexivity. Qed.

Lemma visibleText_only_child t ps (c : Node) :
  visibleText (Elem t ps [c]) = visibleText c.
Proof. reflexivity. Qed.

Lemma styleOf_Elem t (ps : gmap string PropValue) cs o :
  ps !! "style" = Some (PObject o) -> styleOf (Elem t ps cs) = Some o.
Proof. unfold styleOf. simpl. intros ->. reflexivity. Qed.

Lemma styleAttr_Elem t (ps : gmap string PropValue) cs o k :
  ps !! "style" = Some (PObject o) -> styleAttr (Elem t ps cs) k = o !! k.
Proof. intros H. unfold styleAttr. rewrite (styleOf_Elem _ _ _ _ H). reflexivity. Qed.

Lemma nodeCount_pos (n : Node) : (0 < nodeCount n)%nat.
Proof. destruct n; simpl; lia. Qed.

Lemma subtrees_head (n : Node) : exists rest, subtrees n = n :: rest.
Proof. destruct n; simpl; eauto. Qed.

Lemma length_subtrees (n : Node) : length (subtrees n) = nodeCount n.
Proof.
  induction n as [s | t ps cs IH] using Node_nested_ind; [reflexivity |].
  simpl. f_equal.
  induction IH as [| c cs Hc _ IHcs]; [reflexivity |].
  rewrite fmap_cons. change (mjoin (subtrees c :: (subtrees <$> cs)))
    with (subtrees c ++ mjoin (subtrees <$> cs))%list.
  rewrite length_app, Hc, IHcs. reflexivity.
Qed.

(** ** Touch dispatch *)

Lemma press_TextNode s env : press (TextNode s) env = (env, []).
Proof. reflexivity. Qed.

Lemma press_without_onPress (n : Node) (env : Env) :
  onPressOf n = None -> press n env = (env, []).
Proof. unfold press. intros ->. reflexivity. Qed.

Lemma press_with_onPress (n : Node) (f : Callback) (env : Env) :
  onPressOf n = Some f -> press n env = f env.
Proof. unfold press. intros ->. reflexivity. Qed.

Lemma onPressOf_absent (n : Node) :
  nodeProps n !! "onPress" = None -> onPressOf n = None.
Proof. unfold onPressOf. intros ->. reflexivity. Qed.

(** A handler that is wired shows up among the callbacks of the tree. *)
Lemma onPressOf_callbacksOf (n : Node) (f : Callback) :
  onPressOf n = Some f -> f ∈ callbacksOf n.
Proof.
  destruct n as [s | t ps cs]; unfold onPressOf; simpl.
  - rewrite lookup_empty. discriminate.
  - destruct (ps !! "onPress") as [[o | g] |] eqn:Hps; try discriminate.
    intros [= ->]. apply elem_of_app. left.
    apply list_elem_of_omap. exists ("onPress", PCallback f). split; [| reflexivity].
    apply elem_of_map_to_list. exact Hps.
Qed.

Lemma callbacksOf_children t ps cs (c : Node) :
  c ∈ cs -> callbacksOf c ⊆ callbacksOf (Elem t ps cs).
Proof.
  intros Hc f Hf. simpl. apply elem_of_app. right.
  apply list_elem_of_join. exists (callbacksOf c). split; [exact Hf |].
  apply list_elem_of_fmap. exists c. split; [reflexivity | exact Hc].
Qed.

(** A tree without any function-valued attribute is inert: a press on any
    of its nodes leaves the environment as it was and emits nothing. *)
Lemma inert_without_callbacks (n : Node) :
  callbacksOf n = [] ->
  Forall (fun m => forall env, press m env = (env, [])) (subtrees n).
Proof.
  induction n as [s | t ps cs IH] using Node_nested_ind; intros Hnil.
  - repeat constructor.
  - simpl. constructor.
    + intros env. apply press_without_onPress.
      destruct (onPressOf (Elem t ps cs)) as [f |] eqn:Hf; [| reflexivity].
      apply onPressOf_callbacksOf in Hf. rewrite Hnil in Hf.
      apply not_elem_of_nil in Hf. contradiction.
    + apply Forall_forall. intros m Hm.
      apply list_elem_of_join in Hm as (l & Hml & Hl).
      apply list_elem_of_fmap in Hl as (c & -> & Hc).
      rewrite Forall_forall in IH. specialize (IH c Hc).
      assert (Hcnil : callbacksOf c = []).
      { apply elem_of_nil_inv. intros f Hfc.
        apply (callbacksOf_children t ps cs c Hc) in Hfc.
        rewrite Hnil in Hfc. apply not_elem_of_nil in Hfc. exact Hfc. }
      specialize (IH Hcnil). rewrite Forall_forall in IH. apply IH, Hml.
Qed.

(** * The Button component *)

Section ButtonSpec.

Variable env : Env.
Variable props : ButtonProps.

(** The attributes [Button] gives to its root element. *)
Lemma Button_root_style :
  styleOf (Button env props) =
    Some {[ "backgroundColor" := getProp (colorPalette env) "colorBrand";
            "borderRadius" := VNum 24;
            "padding" := VNum 12 ]}.
Proof. apply styleOf_Elem. apply lookup_singleton_eq. Qed.

Lemma Button_root_attrs : dom (nodeProps (Button env props)) = {[ "style" ]}.
Proof. simpl. apply dom_singleton_L. Qed.

Lemma Button_callbacksOf : callbacksOf (Button env props) = [].
Proof. reflexivity. Qed.

(** C1: for every label string, the empty one included, the text that the
    rendered [Button] displays is exactly that string, unchanged. *)
Theorem Button_renders_label : visibleText (Button env props) = label props.
Proof.
  unfold Button. rewrite visibleText_only_child, visibleText_only_child.
  reflexivity.
Qed.

(** C3: the background color of the tappable surface of [Button] is the
    value of [colorPalette.colorBrand]. *)
Theorem Button_background_is_brand :
  styleAttr (Button env props) "backgroundColor"
  = Some (getProp (colorPalette env) "colorBrand").
Proof.
  unfold styleAttr. rewrite Button_root_style. simpl.
  apply lookup_insert_eq.
Qed.

(** C5: for every label the root of the rendered [Button] has the fixed
    corner radius 24, which is not zero, and the fixed padding 12, and
    its child shows the label with the color style "white". *)
Theorem Button_appearance :
  styleAttr (Button env props) "borderRadius" = Some (VNum 24) /\
  24 <> 0 /\
  styleAttr (Button env props) "padding" = Some (VNum 12) /\
  exists txt : Node,
    nodeChildren (Button env props) = [txt] /\
    nodeType txt = Some Text /\
    visibleText txt = label props /\
    styleAttr txt "color" = Some (VStr "white").
Proof.
  unfold styleAttr. rewrite Button_root_style. simpl.
  split; [| split; [| split]].
  - rewrite lookup_insert_ne by discriminate. apply lookup_insert_eq.
  - discriminate.
  - do 2 (rewrite lookup_insert_ne by discriminate). apply lookup_insert_eq.
  - eexists. split; [reflexivity |]. split; [reflexivity |].
    split; [reflexivity |].
    erewrite styleOf_Elem by apply lookup_singleton_eq. simpl.
    apply lookup_singleton_eq.
Qed.

(** C6: [Button] wires no tap handler.  The rendered root has no
    [onPress] attribute, no node of the tree carries a function at all,
    and a press on the root or on any node below it returns the
    environment unchanged and emits nothing. *)
Theorem Button_no_tap_handler :
  nodeProps (Button env props) !! "onPress" = None /\
  onPressOf (Button env props) = None /\
  callbacksOf (Button env props) = [] /\
  (forall st : Env, press (Button env props) st = (st, [])) /\
  Forall (fun n => forall st : Env, press n st = (st, []))
         (subtrees (Button env props)).
Proof.
  assert (Hno : nodeProps (Button env props) !! "onPress" = None).
  { simpl. apply lookup_singleton_ne. discriminate. }
  split; [exact Hno |].
  split; [apply onPressOf_absent, Hno |].
  split; [apply Button_callbacksOf |].
  split.
  - intros st. apply press_without_onPress, onPressOf_absent, Hno.
  - apply inert_without_callbacks, Button_callbacksOf.
Qed.

(** C10: for every label the rendered [Button] is one [TouchableOpacity]
    element with exactly one child, a [Text] element whose only content
    is the label. *)
Theorem Button_structure :
  exists (rootProps textProps : gmap string PropValue),
    Button env props
    = Elem TouchableOpacity rootProps
        [ Elem Text textProps [ TextNode (label props) ] ].
Proof. unfold Button. eauto. Qed.

End ButtonSpec.

(** X1: [Button] is injective in what it reads: two renderings are equal
    only when the labels and the brand colors are. *)
Lemma Button_inj (env1 env2 : Env) (p1 p2 : ButtonProps) :
  Button env1 p1 = Button env2 p2 ->
  label p1 = label p2 /\
  getProp (colorPalette env1) "colorBrand"
  = getProp (colorPalette env2) "colorBrand".
Proof.
  intros H. split.
  - apply (f_equal visibleText) in H. exact H.
  - apply (f_equal (fun n => styleAttr n "backgroundColor")) in H.
    unfold styleAttr in H. rewrite !Button_root_style in H. simpl in H.
    rewrite !lookup_insert_eq in H. congruence.
Qed.

(** C9: the rendering of [Button] depends on the label and on the value of
    [colorPalette.colorBrand] only: two renderings that agree on both are
    equal, whatever else the two environments hold. *)
Theorem Button_noninterference (env1 env2 : Env) (p1 p2 : ButtonProps) :
  label p1 = label p2 ->
  getProp (colorPalette env1) "colorBrand"
  = getProp (colorPalette env2) "colorBrand" ->
  Button env1 p1 = Button env2 p2.
Proof. intros Hl Hc. unfold Button. rewrite Hl, Hc. reflexivity. Qed.

Lemma Button_noninterference_witness :
  label (mkButtonProps "Save") = label (mkButtonProps "Save") /\
  getProp (colorPalette lightEnv) "colorBrand"
  = getProp (colorPalette darkEnv) "colorBrand" /\
  lightEnv <> darkEnv /\
  Button lightEnv (mkButtonProps "Save") = Button darkEnv (mkButtonProps "Save").
Proof.
  split; [reflexivity |]. split; [reflexivity |]. split.
  - intros H. apply (f_equal (fun e => globals e !! "pressCount")) in H.
    vm_compute in H. discriminate H.
  - apply (Button_noninterference lightEnv darkEnv); reflexivity.
Defined.

(** * The Home screen *)

Section HomeSpec.

Variable env : Env.

Lemma Home_root_style : styleOf (Home env) = Some (container styles).
Proof. apply styleOf_Elem. apply lookup_singleton_eq. Qed.

(** C2: [Home] is constant.  It reads nothing, every call gives the same
    tree, and the text that tree displays is "Hello Universe". *)
Theorem Home_constant :
  (forall env' : Env, Home env' = Home env) /\
  visibleText (Home env) = "Hello Universe".
Proof. split; [intros env' |]; reflexivity. Qed.

(** C7: the root container of [Home] fills the available area and
    centers its content: its style has flex 1, justifyContent "center"
    and alignItems "center". *)
Theorem Home_container_centered :
  nodeType (Home env) = Some View /\
  styleAttr (Home env) "flex" = Some (VNum 1) /\
  styleAttr (Home env) "justifyContent" = Some (VStr "center") /\
  styleAttr (Home env) "alignItems" = Some (VStr "center").
Proof.
  unfold styleAttr. rewrite Home_root_style. simpl.
  unfold StyleSheet_create.
  split; [reflexivity |]. split; [apply lookup_insert_eq |].
  split.
  - rewrite lookup_insert_ne by discriminate. apply lookup_insert_eq.
  - do 2 (rewrite lookup_insert_ne by discriminate). apply lookup_insert_eq.
Qed.

End HomeSpec.

(** * Both components *)

(** ** Templates *)

Lemma Template_nested_ind (P : Template -> Prop) :
  (forall s, P (TplText s)) ->
  (forall ty attrs cs, Forall P cs -> P (TplElem ty attrs cs)) ->
  forall t, P t.
Proof.
  intros Htext Helem. fix IH 1.
  intros [s | ty attrs cs]; [apply Htext | apply Helem].
  induction cs as [| c cs IHcs]; constructor; [apply IH | apply IHcs].
Qed.



Lemma fillValue_const (b b' : JsValue) (s : ValueSlot) :
  s <> BrandSlot -> fillValue b s = fillValue b' s.
Proof. destruct s; [reflexivity | contradiction]. Qed.

(** A closed template has one tree. *)
Lemma fill_closed (t : Template) (l l' : string) (b b' : JsValue) :
  closed t = true -> fill t l b = fill t l' b'.
Proof.
  induction t as [s | ty attrs cs IH] using Template_nested_ind.
  - destruct s; [reflexivity | discriminate].
  - simpl. intros [Hattrs Hcs]%andb_true_iff.
    apply bool_decide_eq_true in Hattrs. f_equal.
    + apply map_eq. intros k. rewrite !lookup_fmap.
      destruct (attrs !! k) as [o |] eqn:Hk; [| reflexivity].
      simpl. do 2 f_equal. apply map_eq. intros k'. rewrite !lookup_fmap.
      destruct (o !! k') as [v |] eqn:Hk'; [| reflexivity].
      simpl. f_equal. apply fillValue_const. exact (Hattrs k o Hk k' v Hk').
    + induction IH as [| c cs Hc _ IHcs]; [reflexivity |].
      simpl in Hcs. apply andb_true_iff in Hcs as [Hc1 Hcs].
      rewrite !fmap_cons. f_equal; [exact (Hc Hc1) | exact (IHcs Hcs)].
Qed.



(** C4: rendering is deterministic and pure.  A second render of [Button]
    with an equal label gives a tree equal to the first, whatever the
    bindings other than the palette constant have become in between, and
    a second render of [Home] gives a tree equal to the first in any
    environment. *)
Theorem render_deterministic (env1 env2 : Env) (p1 p2 : ButtonProps) :
  label p1 = label p2 ->
  colorPalette env1 = colorPalette env2 ->
  Button env1 p1 = Button env2 p2 /\
  Home env1 = Home env2.
Proof.
  intros Hlabel Hpalette. split; [| reflexivity].
  unfold Button. rewrite Hlabel, Hpalette. reflexivity.
Qed.

Lemma render_deterministic_witness :
  label (mkButtonProps "Save") = label (mkButtonProps "Save") /\
  colorPalette lightEnv = colorPalette (laterEnv lightEnv (globals darkEnv)) /\
  lightEnv <> laterEnv lightEnv (globals darkEnv) /\
  Button lightEnv (mkButtonProps "Save")
  = Button (laterEnv lightEnv (globals darkEnv)) (mkButtonProps "Save") /\
  Home lightEnv = Home (laterEnv lightEnv (globals darkEnv)).
Proof.
  split; [reflexivity |]. split; [reflexivity |]. split.
  - intros H. apply (f_equal (fun e => globals e !! "pressCount")) in H.
    vm_compute in H. discriminate H.
  - apply (render_deterministic lightEnv (laterEnv lightEnv (globals darkEnv))
             (mkButtonProps "Save") (mkButtonProps "Save")); reflexivity.
Defined.


(** ** Examples *)

Example Button_empty_label :
  visibleText (Button lightEnv (mkButtonProps "")) = "".
Proof. reflexivity. Qed.

Example Button_save_label :
  visibleText (Button darkEnv (mkButtonProps "Save")) = "Save".
Proof. reflexivity. Qed.

Example Button_light_background :
  styleAttr (Button lightEnv (mkButtonProps "Save")) "backgroundColor"
  = Some (VStr "#6200ee").
Proof. reflexivity. Qed.

(** A palette without [colorBrand] gives the background [undefined]. *)
Example Button_missing_brand :
  styleAttr (Button (mkEnv ∅ ∅) (mkButtonProps "Save")) "backgroundColor"
  = Some VUndefined.
Proof. reflexivity. Qed.

Example Home_gap : styleAttr (Home lightEnv) "gap" = Some (VNum 10).
Proof. reflexivity. Qed.

(** The dispatch does run a handler where one is wired. *)
Example press_runs_handler :
  press (Elem TouchableOpacity
           {[ "onPress" := PCallback (fun e => (e, ["tapped"])) ]} [])
        lightEnv
  = (lightEnv, ["tapped"]).
Proof. reflexivity. Qed.

(** * Further properties of the two components *)

Lemma Button_inj_witness :
  Button lightEnv (mkButtonProps "Save") = Button darkEnv (mkButtonProps "Save") /\
  label (mkButtonProps "Save") = label (mkButtonProps "Save") /\
  getProp (colorPalette lightEnv) "colorBrand"
  = getProp (colorPalette darkEnv) "colorBrand".
Proof.
  split; [reflexivity |].
  apply (Button_inj lightEnv darkEnv (mkButtonProps "Save") (mkButtonProps "Save")).
  reflexivity.
Defined.

(** X2: [Button] passes nothing but [style] to either element.  The root
    style has the three members backgroundColor, borderRadius and padding
    and no other, and the style of the [Text] child has the one member
    color. *)
Theorem Button_attributes_exact (env : Env) (props : ButtonProps) :
  dom (nodeProps (Button env props)) = {[ "style" ]} /\
  (exists o, styleOf (Button env props) = Some o /\
             dom o = {[ "backgroundColor"; "borderRadius"; "padding" ]}) /\
  exists txt o,
    nodeChildren (Button env props) = [txt] /\
    dom (nodeProps txt) = {[ "style" ]} /\
    styleOf txt = Some o /\
    dom o = {[ "color" ]}.
Proof.
  split; [apply Button_root_attrs |]. split.
  - eexists. split; [apply Button_root_style |].
    rewrite !dom_insert_L, dom_singleton_L. set_solver.
  - eexists _, _. split; [reflexivity |].
    split; [simpl; apply dom_singleton_L |].
    split; [apply styleOf_Elem, lookup_singleton_eq |].
    apply dom_singleton_L.
Qed.

(** X3: when the palette has no member colorBrand, [Button] still renders:
    the root style keeps the member backgroundColor, with the value
    [undefined], and radius, padding and label are as always. *)
Theorem Button_without_brand (env : Env) (props : ButtonProps) :
  colorPalette env !! "colorBrand" = None ->
  styleAttr (Button env props) "backgroundColor" = Some VUndefined /\
  styleAttr (Button env props) "borderRadius" = Some (VNum 24) /\
  styleAttr (Button env props) "padding" = Some (VNum 12) /\
  visibleText (Button env props) = label props.
Proof.
  intros Hnone. unfold styleAttr. rewrite Button_root_style. simpl.
  rewrite (getProp_None _ _ Hnone).
  split; [apply lookup_insert_eq |].
  split; [rewrite lookup_insert_ne by discriminate; apply lookup_insert_eq |].
  split; [| reflexivity].
  do 2 (rewrite lookup_insert_ne by discriminate). apply lookup_insert_eq.
Qed.

Lemma Button_without_brand_witness :
  colorPalette (mkEnv {[ "colorSurface" := VStr "#ffffff" ]} ∅) !! "colorBrand"
  = None /\
  styleAttr (Button (mkEnv {[ "colorSurface" := VStr "#ffffff" ]} ∅)
                    (mkButtonProps "Save")) "backgroundColor"
  = Some VUndefined.
Proof.
  split; [reflexivity |].
  apply (Button_without_brand (mkEnv {[ "colorSurface" := VStr "#ffffff" ]} ∅)
                              (mkButtonProps "Save")).
  reflexivity.
Defined.

(** X4: setting the palette member colorBrand to a value and then
    rendering gives a [Button] whose background is that value, whatever
    the palette held before. *)
Theorem Button_follows_brand_update
    (pal gl : gmap string JsValue) (v : JsValue) (props : ButtonProps) :
  styleAttr (Button (mkEnv (<[ "colorBrand" := v ]> pal) gl) props)
            "backgroundColor"
  = Some v.
Proof.
  unfold styleAttr. rewrite Button_root_style. simpl.
  rewrite lookup_insert_eq. f_equal.
  apply getProp_Some, lookup_insert_eq.
Qed.

(** X5: setting or removing any palette member other than colorBrand, and
    replacing the other bindings of the environment, leaves the rendered
    [Button] as it was. *)
Theorem Button_frame_palette
    (pal gl gl' : gmap string JsValue) (k : string) (v : JsValue)
    (props : ButtonProps) :
  k <> "colorBrand" ->
  Button (mkEnv (<[ k := v ]> pal) gl') props = Button (mkEnv pal gl) props /\
  Button (mkEnv (delete k pal) gl') props = Button (mkEnv pal gl) props.
Proof.
  intros Hk. unfold Button, getProp. simpl.
  rewrite lookup_insert_ne by exact Hk.
  rewrite lookup_delete_ne by exact Hk.
  split; reflexivity.
Qed.

Lemma Button_frame_palette_witness :
  "colorSurface" <> "colorBrand" /\
  Button (mkEnv (<[ "colorSurface" := VStr "#121212" ]> (colorPalette lightEnv))
                (globals darkEnv))
         (mkButtonProps "Save")
  = Button (mkEnv (colorPalette lightEnv) (globals lightEnv))
           (mkButtonProps "Save").
Proof.
  split; [discriminate |].
  apply (Button_frame_palette (colorPalette lightEnv) (globals lightEnv)
           (globals darkEnv) "colorSurface" (VStr "#121212")
           (mkButtonProps "Save")).
  discriminate.
Defined.

(** X6: [Home] wires no handler either: no node of its tree carries a
    function, and a press on any node returns the environment unchanged
    and emits nothing. *)
Theorem Home_no_handler (env : Env) :
  callbacksOf (Home env) = [] /\
  Forall (fun n => forall st : Env, press n st = (st, []))
         (subtrees (Home env)).
Proof.
  assert (Hnil : callbacksOf (Home env) = []) by reflexivity.
  split; [exact Hnil |]. apply inert_without_callbacks, Hnil.
Qed.

(** X7: the tree of [Home] is one [View] whose only attribute is [style]
    and whose only child is a [Text] of the navigation library, without
    any attribute, whose only content is the string "Hello Universe". *)
Theorem Home_structure (env : Env) :
  nodeType (Home env) = Some View /\
  dom (nodeProps (Home env)) = {[ "style" ]} /\
  exists txt,
    nodeChildren (Home env) = [txt] /\
    nodeType txt = Some NavigationText /\
    nodeProps txt = ∅ /\
    styleOf txt = None /\
    nodeChildren txt = [ TextNode "Hello Universe" ].
Proof.
  split; [reflexivity |]. split; [simpl; apply dom_singleton_L |].
  eexists. split; [reflexivity |]. repeat split.
Qed.

(** X8: the container style of [Home] has the four members flex,
    justifyContent, alignItems and gap and no other; gap is 10, and it
    sets no background color and no padding. *)
Theorem Home_container_exact (env : Env) :
  exists o,
    styleOf (Home env) = Some o /\
    dom o = {[ "flex"; "justifyContent"; "alignItems"; "gap" ]} /\
    o !! "gap" = Some (VNum 10) /\
    styleAttr (Home env) "backgroundColor" = None /\
    styleAttr (Home env) "padding" = None.
Proof.
  eexists. split; [apply Home_root_style |].
  unfold styleAttr. rewrite Home_root_style. simpl. unfold StyleSheet_create.
  split; [rewrite !dom_insert_L, dom_singleton_L; set_solver |].
  repeat split.
Qed.
